(** * Flight market simulation: generator, pain score and selection

    A shallow embedding of [solution.py] and the properties of its
    price generator ([FlightOption.__init__], [generate_flight_data]),
    of the weighted score ([FlightOption.calculate_score]) and of the
    linear minimum search ([find_best_flight]).

    Python integers are unbounded, so they are [Z].  Strings are
    [string].  The module [random] is an explicit generator state
    threaded through a state-and-exception monad. *)

From Stdlib Require Import ZArith List String Bool Lia DecimalString.
Import ListNotations.
Open Scope Z_scope.

(** ** Module-level constants of [solution.py] *)

Definition VALUE_OF_DIRECT_FLIGHT : Z := 60.
Definition VALUE_OF_GOOD_TIME : Z := 40.
Definition VALUE_OF_PREMIUM_AIRLINE : Z := 50.
Definition DAILY_PATIENCE_COST : Z := 5.

Definition DAYS_OF_WEEK : list string :=
  ["Mon"; "Tue"; "Wed"; "Thu"; "Fri"; "Sat"; "Sun"]%string.

(** ** The Python runtime the program relies on *)

Module Py.

(** The exceptions the modelled built-ins can raise. *)
Inductive exn : Set := IndexError | ValueError.

Inductive result (A : Type) : Type :=
| Ok (a : A)
| Raise (e : exn).
Arguments Ok {A} a.
Arguments Raise {A} e.

(** State of the global generator of [random]: an unconstrained
    supply of entropy words and the number of words consumed. *)
Record Rng : Type := mkRng { entropy : nat -> Z; cursor : nat }.

Definition advance (r : Rng) : Rng :=
  mkRng (entropy r) (S (cursor r)).

Definition word (r : Rng) : Z := entropy r (cursor r).

(** Computations that draw from the generator and may raise. *)
Definition M (A : Type) : Type := Rng -> result (A * Rng).

Definition ret {A} (a : A) : M A := fun r => Ok (a, r).

Definition bind {A B} (m : M A) (k : A -> M B) : M B :=
  fun r => match m r with
           | Ok (a, r') => k a r'
           | Raise e => Raise e
           end.

Definition raise {A} (e : exn) : M A := fun _ => Raise e.

(** A float of [[0.0, 1.0)] is [n / 2^53]; it is kept as its
    numerator [n], so that comparisons of such floats are exact. *)
Definition unit_float : Type := Z.

Definition RESOLUTION : Z := 2 ^ 53.

(** The literals [0.5] and [0.40] as binary64 values: [0.5] is
    [2^52 / 2^53], and the double nearest to [0.40] is
    [0x1.999999999999ap-2 = 3602879701896397 / 2^53]. *)
Definition lit_0_5 : unit_float := 4503599627370496.
Definition lit_0_40 : unit_float := 3602879701896397.

Definition float_lt (x y : unit_float) : bool := x <? y.

(** [random.random()]: the next float of [[0.0, 1.0)]. *)
Definition random : M unit_float :=
  fun r => Ok (word r mod RESOLUTION, advance r).

(** [random.randint(a, b)]: an integer [n] with [a <= n <= b];
    [ValueError] on an empty range. *)
Definition randint (a b : Z) : M Z :=
  fun r => if b <? a then Raise ValueError
           else Ok (a + word r mod (b - a + 1), advance r).

(** [l[i]] on a list: negative indices count from the end, anything
    outside raises [IndexError]. *)
Definition getitem {A} (l : list A) (i : Z) : M A :=
  let n := Z.of_nat (List.length l) in
  let j := if i <? 0 then i + n else i in
  if (j <? 0) || (n <=? j) then raise IndexError
  else match nth_error l (Z.to_nat j) with
       | Some x => ret x
       | None => raise IndexError
       end.

(** [range(n)] as the list it iterates over. *)
Definition range (n : Z) : list Z := map Z.of_nat (seq 0 (Z.to_nat n)).

(** [s in l] for a list of strings. *)
Definition str_in (s : string) (l : list string) : bool :=
  existsb (String.eqb s) l.

(** [f"{n:02d}"]: decimal, zero-padded to two characters. *)
Definition format_02d (n : Z) : string :=
  let s := NilZero.string_of_int (Z.to_int n) in
  if (0 <=? n) && (n <? 10) then ("0" ++ s)%string else s.

(** [float('inf')] against which integers are compared. *)
Inductive bound : Set := Infinity | Finite (z : Z).

Definition int_lt (z : Z) (b : bound) : bool :=
  match b with
  | Infinity => true
  | Finite y => z <? y
  end.

End Py.

Import Py.

Notation "x <- m ;; k" := (bind m (fun x => k))
  (at level 61, m at next level, right associativity).

(** ** [class FlightOption] *)

Record FlightOption : Type := mkFlightOption {
  day_index : Z;
  day_name : string;
  airline : string;
  quality_bonus : bool;
  is_direct : bool;
  price : Z;
  time_str : string;
  time_quality : string
}.

(** [FlightOption.__init__(self, day_index, base_market_price,
    start_day_offset)].  Each assignment to [price_modifier] or
    [self.price] rebinds the name. *)
Definition FlightOption_init
    (day_index base_market_price start_day_offset : Z) : M FlightOption :=
  let current_day_num := (day_index + start_day_offset) mod 7 in
  day_name <- getitem DAYS_OF_WEEK current_day_num ;;
  u <- random ;;
  let '(airline, quality_bonus, price_modifier) :=
    if float_lt u lit_0_5
    then ("LuxAir"%string, true, 50)
    else ("CheapJet"%string, false, -30) in
  v <- random ;;
  let '(is_direct, price_modifier) :=
    if float_lt v lit_0_40
    then (false, price_modifier - 60)
    else (true, price_modifier + 20) in
  let price := base_market_price + price_modifier in
  let price :=
    if str_in day_name ["Fri"; "Sun"]%string then price + 80
    else if str_in day_name ["Tue"; "Wed"]%string then price - 40
    else price in
  let price := if day_index <? 3 then price + 150 else price in
  hour <- randint 5 23 ;;
  let time_str := (format_02d hour ++ ":00")%string in
  let '(time_quality, price) :=
    if (10 <=? hour) && (hour <=? 16) then ("Prime"%string, price + 30)
    else if (hour <? 8) || (hour >? 20) then ("Awkward"%string, price - 30)
    else ("Standard"%string, price) in
  let price := Z.max 100 price in
  ret (mkFlightOption day_index day_name airline quality_bonus is_direct
                      price time_str time_quality).

(** [FlightOption.calculate_score(self)]. *)
Definition calculate_score (self : FlightOption) : Z :=
  let score := price self in
  let score := score + day_index self * DAILY_PATIENCE_COST in
  let score :=
    if negb (is_direct self) then score + VALUE_OF_DIRECT_FLIGHT else score in
  let score :=
    if String.eqb (time_quality self) "Awkward"
    then score + VALUE_OF_GOOD_TIME else score in
  let score :=
    if quality_bonus self then score - VALUE_OF_PREMIUM_AIRLINE else score in
  score.

(** ** [generate_flight_data] *)

(** The body of [for day in range(days)], with the loop-carried
    variables [flights] and [market_price] as arguments. *)
Fixpoint generate_loop (days : list Z) (flights : list FlightOption)
    (market_price start_day_offset : Z) : M (list FlightOption) :=
  match days with
  | [] => ret flights
  | day :: days' =>
      f <- FlightOption_init day market_price start_day_offset ;;
      let flights := flights ++ [f] in
      step <- randint (-60) 60 ;;
      let market_price := market_price + step in
      let market_price := Z.max 200 market_price in
      generate_loop days' flights market_price start_day_offset
  end.

Definition generate_flight_data (days : Z) : M (list FlightOption) :=
  let flights := [] in
  market_price <- randint 700 1100 ;;
  start_day_offset <- randint 0 6 ;;
  generate_loop (range days) flights market_price start_day_offset.

(** ** [find_best_flight] *)

(** The body of [for flight in flights], with the loop-carried
    variables [best_flight] and [lowest_score] as arguments. *)
Fixpoint find_best_loop (flights : list FlightOption)
    (best_flight : option FlightOption) (lowest_score : bound)
    : option FlightOption :=
  match flights with
  | [] => best_flight
  | flight :: rest =>
      let score := calculate_score flight in
      if int_lt score lowest_score
      then find_best_loop rest (Some flight) (Finite score)
      else find_best_loop rest best_flight lowest_score
  end.

Definition find_best_flight (flights : list FlightOption)
    : option FlightOption :=
  let best_flight := None in
  let lowest_score := Infinity in
  find_best_loop flights best_flight lowest_score.


(** ** The table of [__main__] *)

(** The [note] that the loop [for f in flight_schedule] of [__main__]
    prints in the row of [f].  [is_best] is the outcome of
    [f == best_choice]: the class defines no [__eq__], so this is the
    identity of the two objects. *)
Definition row_note (is_best : bool) (f : FlightOption) : string :=
  let score := calculate_score f in
  let note := ""%string in
  if is_best then "✅ WINNER"%string
  else if day_index f <? 3 then "❌ Last Minute Panic"%string
  else if str_in (day_name f) ["Fri"; "Sun"]%string && (score >? price f)
       then "⚠️ Weekend Premium"%string
  else if String.eqb (airline f) "LuxAir" && (score <? price f)
       then "💎 Luxury Value"%string
  else note.

(** ** Vocabulary of the properties *)

(** The generator after [n] further draws. *)
Definition skip (n : nat) (r : Rng) : Rng :=
  mkRng (entropy r) (cursor r + n).

(** The generator whose draw number [i] (counted from now) reads [w]. *)
Definition with_word (i : nat) (w : Z) (r : Rng) : Rng :=
  mkRng (fun n => if Nat.eqb n (cursor r + i) then w else entropy r n)
        (cursor r).

(** The value a draw returns, [0] when it raises. *)
Definition drawn (m : M Z) (r : Rng) : Z :=
  match m r with
  | Ok (z, _) => z
  | Raise _ => 0
  end.

(** How many of the entropy words [0 .. n-1] satisfy [p]. *)
Fixpoint count_words (p : Z -> bool) (n : nat) : Z :=
  match n with
  | O => 0
  | S n' => count_words p n' + (if p (Z.of_nat n') then 1 else 0)
  end.

(** [m] is uniform on the integers [[a, b]]: over one period of
    [b - a + 1] equally likely entropy words its value is always in
    range and every integer of the range comes up exactly once. *)
Definition uniform_on (m : M Z) (a b : Z) : bool :=
  let period := Z.to_nat (b - a + 1) in
  let value w := drawn m (mkRng (fun _ => w) 0) in
  forallb (fun i => let v := a + Z.of_nat i in
                    count_words (fun w => value w =? v) period =? 1)
          (seq 0 period)
  && (count_words (fun w => (a <=? value w) && (value w <=? b)) period
      =? Z.of_nat period).

(** The market price after [k] drift-and-floor steps of the loop of
    [generate_flight_data], entered with price [start] and generator
    [r]: per day one step of [[-60, 60]] is added and the floor of 200
    applied.  Day [j] draws its step fourth, after the three draws of
    its offer. *)
Fixpoint walk_from (start : Z) (r : Rng) (k : nat) : Z :=
  match k with
  | O => start
  | S j => Z.max 200 (walk_from start r j
                      + drawn (randint (-60) 60) (skip (4 * j + 3) r))
  end.

(** The same for a whole run: the walk starts from the initial draw of
    [[700, 1100]], and two draws precede the loop. *)
Definition market_walk (r : Rng) (k : nat) : Z :=
  walk_from (drawn (randint 700 1100) r) (skip 2 r) k.

(** The weekday offset [generate_flight_data] draws second. *)
Definition market_offset (r : Rng) : Z := drawn (randint 0 6) (skip 1 r).

(** The offer [f] is the one [generate_flight_data], started on [r],
    builds for day [k]: the constructor is called with the market price
    after [k] steps and the run's weekday offset, and makes the draws
    [2 + 4k], [2 + 4k + 1] and [2 + 4k + 2] of the run. *)
Definition built_on (r : Rng) (k : nat) (f : FlightOption) : Prop :=
  FlightOption_init (Z.of_nat k) (market_walk r k) (market_offset r)
                    (skip (2 + 4 * k) r)
  = Ok (f, skip (2 + 4 * k + 3) r).

(** Whether the offer [__init__] builds is a layover (resp. direct)
    when its flight-type draw, the second of the constructor, is made
    from the entropy word [w]. *)
Definition layover_when (d b off : Z) (r : Rng) (w : Z) : bool :=
  match FlightOption_init d b off (with_word 1 w r) with
  | Ok (f, _) => negb (is_direct f)
  | Raise _ => false
  end.

Definition direct_when (d b off : Z) (r : Rng) (w : Z) : bool :=
  match FlightOption_init d b off (with_word 1 w r) with
  | Ok (f, _) => is_direct f
  | Raise _ => false
  end.

(** Whether the offer [__init__] builds is of the premium tier when
    its tier draw, the first of the constructor, is made from the
    entropy word [w]. *)
Definition premium_when (d b off : Z) (r : Rng) (w : Z) : bool :=
  match FlightOption_init d b off (with_word 0 w r) with
  | Ok (f, _) => quality_bonus f
  | Raise _ => false
  end.

(** The generators [r] and [r'] stand at the same draw and agree on
    their next [n] entropy words. *)
Definition agree (n : nat) (r r' : Rng) : Prop :=
  cursor r = cursor r'
  /\ forall i, (i < n)%nat ->
               entropy r (cursor r + i) = entropy r' (cursor r' + i).

(** What the weekday, the last-minute spike and the time of day add to
    the price of [f]. *)
Definition weekday_modifier (f : FlightOption) : Z :=
  if str_in (day_name f) ["Fri"; "Sun"]%string then 80
  else if str_in (day_name f) ["Tue"; "Wed"]%string then -40
  else 0.

Definition panic_modifier (f : FlightOption) : Z :=
  if day_index f <? 3 then 150 else 0.

Definition time_modifier (f : FlightOption) : Z :=
  if String.eqb (time_quality f) "Prime" then 30
  else if String.eqb (time_quality f) "Awkward" then -30
  else 0.

(** The price of [f] before the floor of 100, on the market price
    [base]. *)
Definition unfloored_price (base : Z) (f : FlightOption) : Z :=
  base + (if quality_bonus f then 50 else -30)
       + (if is_direct f then 20 else -60)
       + weekday_modifier f + panic_modifier f + time_modifier f.

(** Out of the [2^53] equally likely floats of [random.random()], the
    number for which [p] holds. *)
Definition favourable (p : Z -> bool) : Z :=
  count_words p (Z.to_nat RESOLUTION).

(** [b] sits at index [i] of [l], nothing in [l] scores less and
    everything before [i] scores more. *)
Definition first_minimum (l : list FlightOption) (i : nat)
    (b : FlightOption) : Prop :=
  nth_error l i = Some b
  /\ (forall o, In o l -> calculate_score b <= calculate_score o)
  /\ (forall j o, (j < i)%nat -> nth_error l j = Some o ->
                  calculate_score b < calculate_score o).

(** Two offers with the same score, 700. *)
Definition sample_budget : FlightOption :=
  mkFlightOption 0 "Mon" "CheapJet" false true 700 "12:00" "Prime".

Definition sample_premium : FlightOption :=
  mkFlightOption 1 "Tue" "LuxAir" true true 745 "09:00" "Standard".

(** A premium direct flight in the first ten days, and a budget
    flight on a Friday. *)
Definition sample_luxury : FlightOption :=
  mkFlightOption 5 "Mon" "LuxAir" true true 800 "12:00" "Prime".

Definition sample_friday : FlightOption :=
  mkFlightOption 4 "Fri" "CheapJet" false true 900 "18:00" "Standard".

(** The offer [f] with [c] added to its price. *)
Definition surcharge (c : Z) (f : FlightOption) : FlightOption :=
  mkFlightOption (day_index f) (day_name f) (airline f) (quality_bonus f)
                 (is_direct f) (price f + c) (time_str f) (time_quality f).

(** A generator state to run the program on. *)
Definition sample_rng : Rng :=
  mkRng (fun n => Z.of_nat n * 2305843009213693951 + 17) 0.

(** ** The score *)

(** C1, as the code has it.  [calculate_score] is price plus 5 per
    day of waiting, plus 60 for a layover, plus 40 for an awkward time,
    minus 50 for the premium tier; the day name, the airline name and
    the time string do not enter it; the offer with price 500, day 10,
    layover, awkward time and premium tier scores
    [500 + 50 + 60 + 40 - 50 = 600], and the offer with price 700, day
    0, direct, prime time and budget tier scores 700. *)
Theorem calculate_score_formula :
  (forall f : FlightOption,
      calculate_score f
      = price f + day_index f * 5
        + (if is_direct f then 0 else 60)
        + (if String.eqb (time_quality f) "Awkward" then 40 else 0)
        - (if quality_bonus f then 50 else 0))
  /\ (forall d p dir qb tq dn dn' al al' ts ts',
         calculate_score (mkFlightOption d dn al qb dir p ts tq)
         = calculate_score (mkFlightOption d dn' al' qb dir p ts' tq))
  /\ (forall dn al ts,
         calculate_score (mkFlightOption 10 dn al true false 500 ts "Awkward")
         = 600)
  /\ (forall dn al ts,
         calculate_score (mkFlightOption 0 dn al false true 700 ts "Prime")
         = 700).
Proof.
  split; [|split; [|split]].
  - intros f. unfold calculate_score, DAILY_PATIENCE_COST,
      VALUE_OF_DIRECT_FLIGHT, VALUE_OF_GOOD_TIME, VALUE_OF_PREMIUM_AIRLINE.
    destruct (is_direct f), (quality_bonus f),
      (String.eqb (time_quality f) "Awkward"); cbn [negb]; lia.
  - reflexivity.
  - reflexivity.
  - reflexivity.
Qed.

(** C1, as stated, fails on its first scenario: the offer with price
    500, day 10, layover, awkward time and premium tier does not score
    650. *)
Lemma calculate_score_scenario_not_650 :
  calculate_score
    (mkFlightOption 10 "Thu" "LuxAir" true false 500 "06:00" "Awkward")
  <> 650.
Proof. discriminate. Qed.

(** ** The selection *)

Section Selection.

Implicit Types (l : list FlightOption) (b x o : FlightOption).

Lemma first_min_keep l i b x :
  first_minimum l i b -> calculate_score b <= calculate_score x ->
  first_minimum (l ++ [x]) i b.
Proof.
  intros (Hi & Hmin & Hbefore) Hx.
  assert (Hlt : (i < List.length l)%nat)
    by (apply nth_error_Some; congruence).
  repeat split.
  - rewrite nth_error_app1; assumption.
  - intros o [Ho | [<- | []]]%in_app_or; auto.
  - intros j o Hj Hnth. apply (Hbefore j); [assumption|].
    rewrite nth_error_app1 in Hnth; [assumption | lia].
Qed.

Lemma first_min_replace l i b x :
  first_minimum l i b -> calculate_score x < calculate_score b ->
  first_minimum (l ++ [x]) (List.length l) x.
Proof.
  intros (Hi & Hmin & _) Hx. repeat split.
  - rewrite nth_error_app2, Nat.sub_diag; [reflexivity | lia].
  - intros o [Ho | [<- | []]]%in_app_or; [|lia].
    specialize (Hmin o Ho). lia.
  - intros j o Hj Hnth. rewrite nth_error_app1 in Hnth by assumption.
    apply nth_error_In in Hnth. specialize (Hmin o Hnth). lia.
Qed.

(** Invariant of the scan: with the best of the prefix [pre] in
    hand, the loop returns the best of [pre ++ rest]. *)
Lemma find_best_loop_first_minimum rest : forall pre i b,
  first_minimum pre i b ->
  exists i' b',
    find_best_loop rest (Some b) (Finite (calculate_score b)) = Some b'
    /\ first_minimum (pre ++ rest) i' b'.
Proof.
  induction rest as [|x rest IH]; intros pre i b Hb.
  - exists i, b. rewrite app_nil_r. split; [reflexivity | assumption].
  - cbn [find_best_loop int_lt].
    replace (pre ++ x :: rest) with ((pre ++ [x]) ++ rest)
      by (rewrite <- app_assoc; reflexivity).
    destruct (Z.ltb_spec (calculate_score x) (calculate_score b)) as [Hlt|Hge].
    + apply (IH _ (List.length pre) x).
      apply (first_min_replace pre i b); assumption.
    + apply (IH _ i b). apply first_min_keep; assumption.
Qed.

Lemma find_best_flight_first_minimum l :
  l <> [] ->
  exists i b, find_best_flight l = Some b /\ first_minimum l i b.
Proof.
  destruct l as [|x rest]; [congruence | intros _].
  unfold find_best_flight. cbn [find_best_loop int_lt].
  apply (find_best_loop_first_minimum rest [x] 0%nat x).
  repeat split.
  - intros o [<- | []]. lia.
  - intros j o Hj. lia.
Qed.

End Selection.

(** C2. On a non-empty sequence [find_best_flight] returns an offer
    of the sequence whose score is at most the score of every offer,
    and every offer at a smaller index scores strictly more: among the
    offers of minimum score the first one is returned. *)
Theorem find_best_flight_minimum (flights : list FlightOption) :
  flights <> [] ->
  exists (i : nat) (best : FlightOption),
    find_best_flight flights = Some best
    /\ nth_error flights i = Some best
    /\ (forall o, In o flights -> calculate_score best <= calculate_score o)
    /\ (forall j o, (j < i)%nat -> nth_error flights j = Some o ->
                    calculate_score best < calculate_score o).
Proof.
  intros Hne.
  destruct (find_best_flight_first_minimum flights Hne) as (i & b & Hres & H).
  exists i, b. split; [exact Hres | exact H].
Qed.

(** The scan on two offers that tie at 700. *)
Lemma find_best_flight_minimum_witness :
  [sample_budget; sample_premium] <> []
  /\ exists (i : nat) (best : FlightOption),
       find_best_flight [sample_budget; sample_premium] = Some best
       /\ nth_error [sample_budget; sample_premium] i = Some best
       /\ (forall o, In o [sample_budget; sample_premium] ->
                     calculate_score best <= calculate_score o)
       /\ (forall j o, (j < i)%nat ->
                       nth_error [sample_budget; sample_premium] j = Some o ->
                       calculate_score best < calculate_score o).
Proof.
  split; [discriminate|].
  apply (find_best_flight_minimum [sample_budget; sample_premium]).
  discriminate.
Defined.

(** C3. On the empty sequence [find_best_flight] returns [None]: the
    function is total, so nothing is raised, and no offer is made up. *)
Theorem find_best_flight_empty : find_best_flight [] = None.
Proof. reflexivity. Qed.

(** ** The generator state *)

Lemma skip_0 r : skip 0 r = r.
Proof. destruct r as [e c]. unfold skip. cbn. f_equal. lia. Qed.

Lemma skip_skip n m r : skip n (skip m r) = skip (m + n) r.
Proof. unfold skip. cbn. f_equal. lia. Qed.

Lemma advance_skip n r : advance (skip n r) = skip (S n) r.
Proof. unfold advance, skip. cbn. f_equal. lia. Qed.

Lemma advance_is_skip r : advance r = skip 1 r.
Proof. rewrite <- (skip_0 r) at 1. apply advance_skip. Qed.

Lemma random_run r :
  random r = Ok (drawn random r, skip 1 r).
Proof. unfold drawn, random. rewrite advance_is_skip. reflexivity. Qed.

Lemma randint_run a b r :
  a <= b -> randint a b r = Ok (drawn (randint a b) r, skip 1 r).
Proof.
  intros Hab. unfold drawn, randint.
  destruct (Z.ltb_spec b a); [lia|]. rewrite advance_is_skip. reflexivity.
Qed.

Lemma randint_range a b r :
  a <= b -> a <= drawn (randint a b) r <= b.
Proof.
  intros Hab. unfold drawn, randint.
  destruct (Z.ltb_spec b a); [lia|].
  pose proof (Z.mod_pos_bound (word r) (b - a + 1)). lia.
Qed.

(** ** The constructor *)

Lemma getitem_days i :
  0 <= i < 7 ->
  exists s, nth_error DAYS_OF_WEEK (Z.to_nat i) = Some s
            /\ forall r, getitem DAYS_OF_WEEK i r = Ok (s, r).
Proof.
  intros Hi.
  assert (H : i = 0 \/ i = 1 \/ i = 2 \/ i = 3 \/ i = 4 \/ i = 5 \/ i = 6)
    by lia.
  decompose [or] H; subst i; eexists; split; reflexivity.
Qed.

Lemma FlightOption_init_inv d b off r :
  exists f,
    FlightOption_init d b off r = Ok (f, skip 3 r)
    /\ day_index f = d
    /\ nth_error DAYS_OF_WEEK (Z.to_nat ((d + off) mod 7)) = Some (day_name f)
    /\ quality_bonus f = float_lt (drawn random r) lit_0_5
    /\ is_direct f = negb (float_lt (drawn random (skip 1 r)) lit_0_40)
    /\ price f
       = Z.max 100
           (b + (if quality_bonus f then 50 else -30)
              + (if is_direct f then 20 else -60)
              + (if str_in (day_name f) ["Fri"; "Sun"]%string then 80
                 else if str_in (day_name f) ["Tue"; "Wed"]%string then -40
                 else 0)
              + (if d <? 3 then 150 else 0)
              + (if String.eqb (time_quality f) "Prime" then 30
                 else if String.eqb (time_quality f) "Awkward" then -30
                 else 0)).
Proof.
  destruct (getitem_days ((d + off) mod 7)) as (dn & Hdn & Hget).
  { apply Z.mod_pos_bound. lia. }
  unfold FlightOption_init, bind. rewrite Hget, random_run.
  destruct (float_lt (drawn random r) lit_0_5) eqn:Hu;
    rewrite random_run, skip_skip;
    destruct (float_lt (drawn random (skip 1 r)) lit_0_40) eqn:Hv;
    (rewrite (randint_run 5 23) by lia); rewrite skip_skip;
    cbn [Nat.add];
    set (h := drawn (randint 5 23) (skip 2 r));
    destruct ((10 <=? h) && (h <=? 16));
    [ | destruct ((h <? 8) || (h >? 20)) | | destruct ((h <? 8) || (h >? 20))
      | | destruct ((h <? 8) || (h >? 20)) | | destruct ((h <? 8) || (h >? 20)) ];
    (eexists; split; [reflexivity|]);
    cbn [day_index day_name quality_bonus is_direct price time_quality negb];
    cbn [String.eqb Ascii.eqb Bool.eqb andb];
    (repeat split; try assumption);
    destruct (str_in dn ["Fri"; "Sun"]%string),
      (str_in dn ["Tue"; "Wed"]%string), (d <? 3);
    f_equal; lia.
Qed.

(** ** The loop of [generate_flight_data] *)

Lemma walk_from_shift start r k :
  walk_from start r (S k)
  = walk_from (Z.max 200 (start + drawn (randint (-60) 60) (skip 3 r)))
              (skip 4 r) k.
Proof.
  induction k as [|k IH].
  - reflexivity.
  - change (walk_from start r (S (S k)))
      with (Z.max 200 (walk_from start r (S k)
                       + drawn (randint (-60) 60) (skip (4 * S k + 3) r))).
    rewrite IH. cbn [walk_from]. rewrite skip_skip.
    do 3 f_equal. f_equal. lia.
Qed.

(** Entered with the offers [acc], the price [mp] and the generator
    [r], the loop over the days [s .. s+n-1] never raises; it appends
    [n] offers, and the offer of day [s+k] is the one the constructor
    builds from the price after [k] steps, at the generator after [4k]
    draws. *)
Lemma generate_loop_run n : forall s acc mp off r,
  exists fl,
    generate_loop (map Z.of_nat (seq s n)) acc mp off r
    = Ok (acc ++ fl, skip (4 * n) r)
    /\ List.length fl = n
    /\ forall k, (k < n)%nat ->
         exists f, nth_error fl k = Some f
                   /\ FlightOption_init (Z.of_nat (s + k)) (walk_from mp r k)
                        off (skip (4 * k) r)
                      = Ok (f, skip (4 * k + 3) r).
Proof.
  induction n as [|n IH]; intros s acc mp off r.
  - exists []. cbn. rewrite app_nil_r. unfold ret.
    rewrite skip_0.
    split; [reflexivity | split; [reflexivity | intros k Hk; lia]].
  - destruct (FlightOption_init_inv (Z.of_nat s) mp off r) as (f & Hf & _).
    cbn [seq map generate_loop]. unfold bind at 1. rewrite Hf.
    unfold bind at 1. rewrite (randint_run (-60) 60) by lia.
    rewrite skip_skip. cbn [Nat.add].
    destruct (IH (S s) (acc ++ [f])
                (Z.max 200 (mp + drawn (randint (-60) 60) (skip 3 r)))
                off (skip 4 r)) as (fl & Hrun & Hlen & Hnth).
    exists (f :: fl). rewrite Hrun, skip_skip, <- app_assoc.
    split; [do 2 f_equal; f_equal; lia|].
    split; [cbn; lia|].
    intros [|k] Hk.
    + exists f. split; [reflexivity|].
      rewrite Nat.add_0_r. cbn [walk_from]. rewrite skip_0. exact Hf.
    + destruct (Hnth k) as (g & Hg & Hinit); [lia|].
      exists g. split; [exact Hg|].
      rewrite walk_from_shift.
      rewrite skip_skip in Hinit.
      replace (s + S k)%nat with (S s + k)%nat by lia.
      replace (4 * S k)%nat with (4 + 4 * k)%nat by lia.
      rewrite Hinit. do 2 f_equal. unfold skip. cbn. f_equal. lia.
Qed.

(** A run of [generate_flight_data] never raises; it makes
    [2 + 4 * days] draws and returns one offer per day, the offer of
    day [k] being the one the constructor builds from [market_walk r k]
    and [market_offset r]. *)
Lemma generate_flight_data_run days r :
  exists flights,
    generate_flight_data days r
    = Ok (flights, skip (2 + 4 * Z.to_nat days) r)
    /\ List.length flights = Z.to_nat days
    /\ forall k, (k < Z.to_nat days)%nat ->
         exists f, nth_error flights k = Some f
                   /\ FlightOption_init (Z.of_nat k) (market_walk r k)
                        (market_offset r) (skip (2 + 4 * k) r)
                      = Ok (f, skip (2 + 4 * k + 3) r).
Proof.
  unfold generate_flight_data, bind, range.
  rewrite (randint_run 700 1100) by lia.
  rewrite (randint_run 0 6) by lia. rewrite skip_skip. cbn [Nat.add].
  destruct (generate_loop_run (Z.to_nat days) 0 [] (drawn (randint 700 1100) r)
              (market_offset r) (skip 2 r)) as (fl & Hrun & Hlen & Hnth).
  exists fl. unfold market_offset in *. rewrite Hrun, skip_skip.
  split; [reflexivity|]. split; [exact Hlen|].
  intros k Hk. destruct (Hnth k Hk) as (f & Hf & Hinit).
  exists f. split; [exact Hf|].
  rewrite !skip_skip in Hinit. cbn [Nat.add] in Hinit.
  unfold market_walk.
  replace (2 + 4 * k + 3)%nat with (2 + (4 * k + 3))%nat by lia.
  exact Hinit.
Qed.

Lemma Forall2_of_nth_error {A B} (R : A -> B -> Prop) : forall l l',
  List.length l = List.length l' ->
  (forall k a, nth_error l k = Some a ->
               exists b, nth_error l' k = Some b /\ R a b) ->
  Forall2 R l l'.
Proof.
  induction l as [|a l IH]; intros [|b l'] Hlen H; try discriminate.
  - constructor.
  - constructor.
    + destruct (H 0%nat a eq_refl) as (b' & [= <-] & HR). exact HR.
    + apply IH; [cbn in Hlen; lia|].
      intros k a' Hk. exact (H (S k) a' Hk).
Qed.

Lemma Forall2_Forall_right {A B} (R : A -> B -> Prop) (P : B -> Prop) l l' :
  (forall a b, R a b -> P b) -> Forall2 R l l' -> Forall P l'.
Proof. intros HRP H. induction H; constructor; eauto. Qed.

Lemma Forall2_map_eq {A B C} (g : B -> C) (h : A -> C) l l' :
  Forall2 (fun a b => g b = h a) l l' -> map g l' = map h l.
Proof. intros H. induction H; cbn; congruence. Qed.

(** A run never raises, and its offers are, in order, those built for
    the days [0 .. days-1]. *)
Lemma generate_flight_data_offers days r :
  exists flights,
    generate_flight_data days r
    = Ok (flights, skip (2 + 4 * Z.to_nat days) r)
    /\ Forall2 (built_on r) (seq 0 (Z.to_nat days)) flights.
Proof.
  destruct (generate_flight_data_run days r) as (fl & Hrun & Hlen & Hnth).
  exists fl. split; [exact Hrun|].
  apply Forall2_of_nth_error.
  - rewrite length_seq. congruence.
  - intros k a Hk. rewrite nth_error_seq in Hk.
    destruct (Nat.ltb_spec k (Z.to_nat days)) as [Hlt|]; [|discriminate].
    injection Hk as <-. exact (Hnth k Hlt).
Qed.

Lemma built_on_inv r k f :
  built_on r k f ->
  day_index f = Z.of_nat k
  /\ nth_error DAYS_OF_WEEK
       (Z.to_nat ((day_index f + market_offset r) mod 7))
     = Some (day_name f)
  /\ 100 <= price f.
Proof.
  unfold built_on. intros H.
  destruct (FlightOption_init_inv (Z.of_nat k) (market_walk r k)
              (market_offset r) (skip (2 + 4 * k) r))
    as (g & Hg & Hday & Hname & _ & _ & Hprice).
  rewrite Hg in H. injection H as <-.
  rewrite Hday. repeat split; [exact Hname | rewrite Hprice; lia].
Qed.

(** The score is at least the price and the cost of waiting, less the
    premium bonus. *)
Lemma calculate_score_lower f :
  price f + day_index f * 5 - 50 <= calculate_score f.
Proof.
  unfold calculate_score, DAILY_PATIENCE_COST, VALUE_OF_DIRECT_FLIGHT,
    VALUE_OF_GOOD_TIME, VALUE_OF_PREMIUM_AIRLINE.
  destruct (negb (is_direct f)), (quality_bonus f),
    (String.eqb (time_quality f) "Awkward"); lia.
Qed.

(** ** The generator: claims *)

(** C6. For every [N > 0], [generate_flight_data(N)] returns exactly
    [N] offers, and their [day_index] values are [0, 1, ..., N-1] in
    this order. *)
Theorem generate_flight_data_days (N : Z) (r : Rng) :
  0 < N ->
  exists flights r',
    generate_flight_data N r = Ok (flights, r')
    /\ Z.of_nat (List.length flights) = N
    /\ map day_index flights = range N.
Proof.
  intros HN.
  destruct (generate_flight_data_offers N r) as (fl & Hrun & Hall).
  exists fl, (skip (2 + 4 * Z.to_nat N) r). split; [exact Hrun|].
  assert (Hmap : map day_index fl = range N).
  { unfold range. apply Forall2_map_eq.
    eapply Forall2_impl; [|exact Hall].
    intros k f Hb. apply (built_on_inv r k f Hb). }
  split; [|exact Hmap].
  rewrite <- (length_map day_index), Hmap. unfold range.
  rewrite length_map, length_seq. lia.
Qed.

Lemma generate_flight_data_days_witness :
  0 < 3
  /\ exists flights r',
       generate_flight_data 3 sample_rng = Ok (flights, r')
       /\ Z.of_nat (List.length flights) = 3
       /\ map day_index flights = range 3.
Proof.
  split; [lia | apply (generate_flight_data_days 3 sample_rng); lia].
Defined.

(** C7. Every offer of a run has [price >= 100]: its price is the
    maximum of 100 and the market price of its day plus the tier,
    flight-type, weekday, last-minute and time-of-day modifiers. *)
Theorem generated_price_floor (days : Z) (r : Rng) :
  exists flights r',
    generate_flight_data days r = Ok (flights, r')
    /\ Forall (fun f => 100 <= price f) flights
    /\ Forall2
         (fun k f =>
            price f
            = Z.max 100
                (market_walk r k
                 + (if quality_bonus f then 50 else -30)
                 + (if is_direct f then 20 else -60)
                 + (if str_in (day_name f) ["Fri"; "Sun"]%string then 80
                    else if str_in (day_name f) ["Tue"; "Wed"]%string
                         then -40 else 0)
                 + (if day_index f <? 3 then 150 else 0)
                 + (if String.eqb (time_quality f) "Prime" then 30
                    else if String.eqb (time_quality f) "Awkward" then -30
                    else 0)))
         (seq 0 (Z.to_nat days)) flights.
Proof.
  destruct (generate_flight_data_offers days r) as (fl & Hrun & Hall).
  exists fl, (skip (2 + 4 * Z.to_nat days) r). split; [exact Hrun|]. split.
  - eapply Forall2_Forall_right; [|exact Hall].
    intros k f Hb. apply (built_on_inv r k f Hb).
  - eapply Forall2_impl; [|exact Hall].
    intros k f Hb. unfold built_on in Hb.
    destruct (FlightOption_init_inv (Z.of_nat k) (market_walk r k)
                (market_offset r) (skip (2 + 4 * k) r))
      as (g & Hg & Hday & _ & _ & _ & Hprice).
    rewrite Hg in Hb. injection Hb as <-. rewrite Hday. exact Hprice.
Qed.

(** C9. For every [N <= 0], [generate_flight_data(N)] raises nothing
    and returns the empty list, after its two initial draws. *)
Theorem generate_flight_data_nonpositive (N : Z) (r : Rng) :
  N <= 0 -> generate_flight_data N r = Ok ([], skip 2 r).
Proof.
  intros HN.
  destruct (generate_flight_data_offers N r) as (fl & Hrun & Hall).
  replace (Z.to_nat N) with 0%nat in * by lia.
  inversion Hall; subst. exact Hrun.
Qed.

Lemma generate_flight_data_nonpositive_witness :
  -4 <= 0 /\ generate_flight_data (-4) sample_rng = Ok ([], skip 2 sample_rng).
Proof.
  split; [lia | apply (generate_flight_data_nonpositive (-4) sample_rng); lia].
Defined.

(** C10. Every offer of a run scores at least 50, so never below zero:
    its price is at least 100, its day index is not negative, and only
    the premium bonus of 50 is subtracted.  An offer that no run
    produces can score below zero. *)
Theorem generated_score_lower_bound (days : Z) (r : Rng) :
  (exists flights r',
      generate_flight_data days r = Ok (flights, r')
      /\ Forall (fun f => 100 <= price f /\ 0 <= day_index f
                          /\ price f - 50 <= calculate_score f
                          /\ 50 <= calculate_score f) flights)
  /\ calculate_score
       (mkFlightOption 0 "Mon" "LuxAir" true true 20 "12:00" "Prime") < 0.
Proof.
  split; [|reflexivity].
  destruct (generate_flight_data_offers days r) as (fl & Hrun & Hall).
  exists fl, (skip (2 + 4 * Z.to_nat days) r). split; [exact Hrun|].
  eapply Forall2_Forall_right; [|exact Hall].
  intros k f Hb. destruct (built_on_inv r k f Hb) as (Hday & _ & Hprice).
  pose proof (calculate_score_lower f). lia.
Qed.

(** C8. A run draws one [start_offset], second, uniformly from the
    integers [[0, 6]], and hands it to the constructor of every day:
    the offer of day [k] is the one the constructor builds from it, and
    has [day_name = DAYS_OF_WEEK[(day_index + start_offset) mod 7]]. *)
Theorem generated_day_names (days : Z) (r : Rng) :
  exists flights start_offset,
    generate_flight_data days r
    = Ok (flights, skip (2 + 4 * Z.to_nat days) r)
    /\ randint 0 6 (skip 1 r) = Ok (start_offset, skip 2 r)
    /\ 0 <= start_offset <= 6
    /\ uniform_on (randint 0 6) 0 6 = true
    /\ Forall2
         (fun k f =>
            FlightOption_init (Z.of_nat k) (market_walk r k) start_offset
                              (skip (2 + 4 * k) r)
            = Ok (f, skip (2 + 4 * k + 3) r)
            /\ day_index f = Z.of_nat k
            /\ nth_error DAYS_OF_WEEK
                 (Z.to_nat ((day_index f + start_offset) mod 7))
               = Some (day_name f))
         (seq 0 (Z.to_nat days)) flights
    /\ Forall
         (fun f =>
            nth_error DAYS_OF_WEEK
              (Z.to_nat ((day_index f + start_offset) mod 7))
            = Some (day_name f))
         flights.
Proof.
  destruct (generate_flight_data_offers days r) as (fl & Hrun & Hall).
  exists fl, (market_offset r).
  split; [exact Hrun|]. unfold market_offset at 1 2.
  split; [rewrite (randint_run 0 6), skip_skip by lia; reflexivity|].
  split; [apply randint_range; lia|].
  split; [vm_compute; reflexivity|].
  split.
  - eapply Forall2_impl; [|exact Hall].
    intros k f Hb. split; [exact Hb|].
    destruct (built_on_inv r k f Hb) as (Hday & Hname & _). auto.
  - eapply Forall2_Forall_right; [|exact Hall].
    intros k f Hb. apply (built_on_inv r k f Hb).
Qed.

(** C4. The market price is advanced after the offer of a day is
    built and before the next one is: the run starts from a uniform draw
    of [[700, 1100]]; the offer of day [k] is built from the price after
    [k] steps; the step after day [k] is drawn, uniformly from
    [[-60, 60]], from the generator the constructor of day [k] left, is
    added, and the sum is floored at 200, which gives the price of day
    [k+1].  On [sample_rng] the offer of day 1 costs otherwise than an
    offer built from the initial draw. *)
Theorem market_price_walk (days : Z) (r : Rng) :
  (exists flights r',
      generate_flight_data days r = Ok (flights, r')
      /\ Forall2 (built_on r) (seq 0 (Z.to_nat days)) flights)
  /\ (randint 700 1100 r = Ok (market_walk r 0, skip 1 r)
      /\ 700 <= market_walk r 0 <= 1100
      /\ uniform_on (randint 700 1100) 700 1100 = true)
  /\ (forall k : nat,
        exists step,
          randint (-60) 60 (skip (2 + 4 * k + 3) r)
          = Ok (step, skip (2 + 4 * S k) r)
          /\ -60 <= step <= 60
          /\ market_walk r (S k) = Z.max 200 (market_walk r k + step))
  /\ uniform_on (randint (-60) 60) (-60) 60 = true
  /\ (exists f f',
        built_on sample_rng 1 f
        /\ FlightOption_init 1 (market_walk sample_rng 0)
             (market_offset sample_rng) (skip 6 sample_rng)
           = Ok (f', skip 9 sample_rng)
        /\ price f <> price f').
Proof.
  split; [|split; [|split; [|split]]].
  - destruct (generate_flight_data_offers days r) as (fl & Hrun & Hall).
    eauto.
  - unfold market_walk. cbn [walk_from].
    split; [apply randint_run; lia|].
    split; [apply randint_range; lia | vm_compute; reflexivity].
  - intros k. exists (drawn (randint (-60) 60) (skip (2 + 4 * k + 3) r)).
    split; [|split].
    + rewrite (randint_run (-60) 60), skip_skip by lia.
      replace (2 + 4 * k + 3 + 1)%nat with (2 + 4 * S k)%nat by lia.
      reflexivity.
    + apply randint_range. lia.
    + unfold market_walk. cbn [walk_from]. rewrite skip_skip.
      replace (2 + (4 * k + 3))%nat with (2 + 4 * k + 3)%nat by lia.
      reflexivity.
  - vm_compute. reflexivity.
  - eexists. eexists. unfold built_on.
    split; [vm_compute; reflexivity|].
    split; [vm_compute; reflexivity|]. vm_compute. discriminate.
Qed.

(** ** The flight-type draw *)

Lemma count_words_ext p q n :
  (forall w, 0 <= w < Z.of_nat n -> p w = q w) ->
  count_words p n = count_words q n.
Proof.
  induction n as [|n IH]; intros H; [reflexivity|].
  cbn [count_words]. rewrite IH, (H (Z.of_nat n)) by (intros; try apply H; lia).
  reflexivity.
Qed.

Lemma count_words_below t n :
  0 <= t -> count_words (fun w => w <? t) n = Z.min t (Z.of_nat n).
Proof.
  intros Ht. induction n as [|n IH]; [cbn; lia|].
  cbn [count_words]. rewrite IH.
  destruct (Z.ltb_spec (Z.of_nat n) t); lia.
Qed.

Lemma count_words_not_below t n :
  0 <= t ->
  count_words (fun w => negb (w <? t)) n = Z.of_nat n - Z.min t (Z.of_nat n).
Proof.
  intros Ht. induction n as [|n IH]; [cbn; lia|].
  cbn [count_words]. rewrite IH.
  destruct (Z.ltb_spec (Z.of_nat n) t); cbn [negb]; lia.
Qed.

Lemma RESOLUTION_nat : Z.of_nat (Z.to_nat RESOLUTION) = RESOLUTION.
Proof. apply Z2Nat.id. discriminate. Qed.

Lemma flight_type_of_word d b off r w :
  0 <= w < RESOLUTION ->
  layover_when d b off r w = (w <? lit_0_40)
  /\ direct_when d b off r w = negb (w <? lit_0_40).
Proof.
  intros Hw. unfold layover_when, direct_when.
  destruct (FlightOption_init_inv d b off (with_word 1 w r))
    as (f & Hf & _ & _ & _ & Hdir & _).
  rewrite Hf, Hdir, negb_involutive. unfold float_lt.
  replace (drawn random (skip 1 (with_word 1 w r))) with w; [auto|].
  unfold drawn, random, word, skip, with_word. cbn [entropy cursor].
  rewrite Nat.eqb_refl. symmetry. apply Z.mod_small. exact Hw.
Qed.

Lemma favourable_layover d b off r :
  favourable (layover_when d b off r) = lit_0_40.
Proof.
  unfold favourable.
  rewrite (count_words_ext _ (fun w => w <? lit_0_40)).
  - rewrite count_words_below, RESOLUTION_nat by discriminate. reflexivity.
  - intros w Hw. rewrite RESOLUTION_nat in Hw.
    apply flight_type_of_word. exact Hw.
Qed.

Lemma favourable_direct d b off r :
  favourable (direct_when d b off r) = RESOLUTION - lit_0_40.
Proof.
  unfold favourable.
  rewrite (count_words_ext _ (fun w => negb (w <? lit_0_40))).
  - rewrite count_words_not_below, RESOLUTION_nat by discriminate.
    reflexivity.
  - intros w Hw. rewrite RESOLUTION_nat in Hw.
    apply flight_type_of_word. exact Hw.
Qed.

(** The flight-type draw as the constructor runs it.  It decides the
    flight type by its second draw [v]: a layover ([is_direct = false], modifier
    -60) when [v < 0.40], a direct flight ([is_direct = true], modifier
    +20) otherwise.  Of the [2^53] equally likely floats,
    [3602879701896397] give a layover, which is 0.40 to the precision of
    a double, and all the others give a direct flight. *)
Theorem flight_type_draw (d b off : Z) (r : Rng) :
  exists f,
    FlightOption_init d b off r = Ok (f, skip 3 r)
    /\ is_direct f = negb (float_lt (drawn random (skip 1 r)) lit_0_40)
    /\ price f
       = Z.max 100
           (b + (if quality_bonus f then 50 else -30)
              + (if is_direct f then 20 else -60)
              + (if str_in (day_name f) ["Fri"; "Sun"]%string then 80
                 else if str_in (day_name f) ["Tue"; "Wed"]%string then -40
                 else 0)
              + (if d <? 3 then 150 else 0)
              + (if String.eqb (time_quality f) "Prime" then 30
                 else if String.eqb (time_quality f) "Awkward" then -30
                 else 0))
    /\ favourable (layover_when d b off r) = lit_0_40
    /\ favourable (direct_when d b off r) = RESOLUTION - lit_0_40
    /\ 5 * lit_0_40 = 2 * RESOLUTION + 1.
Proof.
  destruct (FlightOption_init_inv d b off r)
    as (f & Hf & _ & _ & _ & Hdir & Hprice).
  exists f. split; [exact Hf|]. split; [exact Hdir|]. split; [exact Hprice|].
  split; [apply favourable_layover|]. split; [apply favourable_direct|].
  reflexivity.
Qed.

(** C5.  The constructor departs from the claim, and from its own
    comment that direct flights are rarer (40% chance): it gives the
    draws below 0.40 to layovers.  On [sample_rng], for day 0 and a
    market price of 900, the floats of the flight-type draw that give a
    direct flight are not fewer than those that give a layover. *)
Lemma direct_flights_not_rarer :
  ~ (favourable (direct_when 0 900 0 sample_rng)
     < favourable (layover_when 0 900 0 sample_rng)).
Proof.
  rewrite favourable_layover, favourable_direct. discriminate.
Qed.

(** ** Further properties of the constructor *)

(** Everything the constructor stores, in terms of its arguments and of
    its three draws. *)
Lemma FlightOption_init_fields d b off r :
  exists f,
    FlightOption_init d b off r = Ok (f, skip 3 r)
    /\ day_index f = d
    /\ nth_error DAYS_OF_WEEK (Z.to_nat ((d + off) mod 7)) = Some (day_name f)
    /\ quality_bonus f = float_lt (drawn random r) lit_0_5
    /\ airline f = (if quality_bonus f then "LuxAir" else "CheapJet")%string
    /\ is_direct f = negb (float_lt (drawn random (skip 1 r)) lit_0_40)
    /\ time_str f
       = (format_02d (drawn (randint 5 23) (skip 2 r)) ++ ":00")%string
    /\ time_quality f
       = (let hour := drawn (randint 5 23) (skip 2 r) in
          if (10 <=? hour) && (hour <=? 16) then "Prime"%string
          else if (hour <? 8) || (hour >? 20) then "Awkward"%string
          else "Standard"%string)
    /\ price f = Z.max 100 (unfloored_price b f).
Proof.
  destruct (FlightOption_init_inv d b off r)
    as (f & Hf & Hday & Hname & Hbonus & Hdir & Hprice).
  exists f. split; [exact Hf|]. split; [exact Hday|]. split; [exact Hname|].
  split; [exact Hbonus|].
  assert (Hrest :
    airline f = (if quality_bonus f then "LuxAir" else "CheapJet")%string
    /\ time_str f
       = (format_02d (drawn (randint 5 23) (skip 2 r)) ++ ":00")%string
    /\ time_quality f
       = (let hour := drawn (randint 5 23) (skip 2 r) in
          if (10 <=? hour) && (hour <=? 16) then "Prime"%string
          else if (hour <? 8) || (hour >? 20) then "Awkward"%string
          else "Standard"%string)).
  { clear Hday Hname Hbonus Hdir Hprice. revert Hf.
    destruct (getitem_days ((d + off) mod 7)) as (dn & _ & Hget).
    { apply Z.mod_pos_bound. lia. }
    unfold FlightOption_init, bind. rewrite Hget, random_run.
    destruct (float_lt (drawn random r) lit_0_5);
      rewrite random_run, skip_skip;
      destruct (float_lt (drawn random (skip 1 r)) lit_0_40);
      (rewrite (randint_run 5 23) by lia); rewrite skip_skip;
      cbn [Nat.add]; cbv zeta;
      set (h := drawn (randint 5 23) (skip 2 r));
      destruct ((10 <=? h) && (h <=? 16));
      [ | destruct ((h <? 8) || (h >? 20)) | | destruct ((h <? 8) || (h >? 20))
        | | destruct ((h <? 8) || (h >? 20)) | | destruct ((h <? 8) || (h >? 20)) ];
      unfold ret; intros [= <-]; repeat split. }
  destruct Hrest as (Hair & Hstr & Hq).
  split; [exact Hair|]. split; [exact Hdir|]. split; [exact Hstr|].
  split; [exact Hq|].
  rewrite Hprice. unfold unfloored_price, weekday_modifier, panic_modifier,
    time_modifier. rewrite Hday. reflexivity.
Qed.

Lemma format_02d_length h :
  5 <= h <= 23 -> String.length (format_02d h ++ ":00") = 5%nat.
Proof.
  intros Hh.
  assert (H : exists n, (n < 19)%nat /\ h = 5 + Z.of_nat n)
    by (exists (Z.to_nat (h - 5)); lia).
  destruct H as (n & Hn & ->). clear Hh.
  do 19 (destruct n as [|n]; [reflexivity|]). lia.
Qed.

(** X1. Time of day.  The constructor draws an hour of [[5, 23]],
    stores it as the five characters [HH:00], and grades it: "Prime"
    from 10 to 16, "Awkward" before 8 and after 20, "Standard" for
    8, 9 and 17 to 20; exactly one grade applies. *)
Theorem constructor_time_of_day (d b off : Z) (r : Rng) :
  exists f hour,
    FlightOption_init d b off r = Ok (f, skip 3 r)
    /\ randint 5 23 (skip 2 r) = Ok (hour, skip 3 r)
    /\ 5 <= hour <= 23
    /\ time_str f = (format_02d hour ++ ":00")%string
    /\ String.length (time_str f) = 5%nat
    /\ (time_quality f = "Prime"%string /\ 10 <= hour <= 16
        \/ time_quality f = "Awkward"%string /\ (hour < 8 \/ 20 < hour)
        \/ time_quality f = "Standard"%string
           /\ (8 <= hour <= 9 \/ 17 <= hour <= 20)).
Proof.
  destruct (FlightOption_init_fields d b off r)
    as (f & Hf & _ & _ & _ & _ & _ & Hstr & Hq & _).
  exists f, (drawn (randint 5 23) (skip 2 r)).
  pose proof (randint_range 5 23 (skip 2 r) ltac:(lia)) as Hh.
  split; [exact Hf|].
  split; [rewrite (randint_run 5 23), skip_skip by lia; reflexivity|].
  split; [exact Hh|]. split; [exact Hstr|].
  split; [rewrite Hstr; apply format_02d_length; exact Hh|].
  rewrite Hq. cbv zeta.
  set (h := drawn (randint 5 23) (skip 2 r)) in *.
  destruct (Z.leb_spec 10 h), (Z.leb_spec h 16); cbn [andb];
    try (left; split; [reflexivity | lia]);
    destruct (Z.ltb_spec h 8), (Z.gtb_spec h 20); cbn [orb];
    try (right; left; split; [reflexivity | lia]);
    right; right; split; try reflexivity; lia.
Qed.

Lemma premium_of_word d b off r w :
  0 <= w < RESOLUTION -> premium_when d b off r w = (w <? lit_0_5).
Proof.
  intros Hw. unfold premium_when.
  destruct (FlightOption_init_inv d b off (with_word 0 w r))
    as (f & Hf & _ & _ & Hbonus & _).
  rewrite Hf, Hbonus. unfold float_lt. f_equal.
  unfold drawn, random, word, with_word. cbn [entropy cursor].
  rewrite Nat.add_0_r, Nat.eqb_refl. apply Z.mod_small. exact Hw.
Qed.

(** X2. Airline and tier.  The constructor names the airline "LuxAir"
    exactly when it sets the quality bonus, and "CheapJet" otherwise;
    the tier is premium when the first draw is below 0.5, which is the
    case for exactly half of the [2^53] floats. *)
Theorem constructor_airline_tier (d b off : Z) (r : Rng) :
  exists f,
    FlightOption_init d b off r = Ok (f, skip 3 r)
    /\ quality_bonus f = float_lt (drawn random r) lit_0_5
    /\ (airline f = "LuxAir"%string /\ quality_bonus f = true
        \/ airline f = "CheapJet"%string /\ quality_bonus f = false)
    /\ 2 * favourable (premium_when d b off r) = RESOLUTION.
Proof.
  destruct (FlightOption_init_fields d b off r)
    as (f & Hf & _ & _ & Hbonus & Hair & _).
  exists f. split; [exact Hf|]. split; [exact Hbonus|]. split.
  - rewrite Hair. destruct (quality_bonus f); auto.
  - unfold favourable.
    rewrite (count_words_ext _ (fun w => w <? lit_0_5)).
    + rewrite count_words_below, RESOLUTION_nat by discriminate. reflexivity.
    + intros w Hw. rewrite RESOLUTION_nat in Hw.
      apply premium_of_word. exact Hw.
Qed.

Lemma unfloored_price_shift b f :
  unfloored_price b f = b + unfloored_price 0 f.
Proof. unfold unfloored_price. lia. Qed.

Lemma unfloored_price_bounds b f :
  b - 160 + panic_modifier f <= unfloored_price b f
  <= b + 180 + panic_modifier f.
Proof.
  unfold unfloored_price, weekday_modifier, time_modifier.
  destruct (quality_bonus f), (is_direct f),
    (str_in (day_name f) ["Fri"; "Sun"]%string),
    (str_in (day_name f) ["Tue"; "Wed"]%string),
    (String.eqb (time_quality f) "Prime"),
    (String.eqb (time_quality f) "Awkward"); lia.
Qed.

Lemma panic_modifier_bounds f : 0 <= panic_modifier f <= 150.
Proof. unfold panic_modifier. destruct (day_index f <? 3); lia. Qed.

(** X3. The market price passed to the constructor reaches the price
    of the offer and nothing else: on the same generator two market
    prices give offers with the same day, airline, tier, flight type
    and time, and prices [max(100, b + m)] and [max(100, b' + m)] for
    one sum of modifiers [m], which lies between -160 and 330. *)
Theorem constructor_base_price (d b b' off : Z) (r : Rng) :
  exists f f' m,
    FlightOption_init d b off r = Ok (f, skip 3 r)
    /\ FlightOption_init d b' off r = Ok (f', skip 3 r)
    /\ -160 <= m <= 330
    /\ price f = Z.max 100 (b + m)
    /\ f' = mkFlightOption (day_index f) (day_name f) (airline f)
              (quality_bonus f) (is_direct f) (Z.max 100 (b' + m))
              (time_str f) (time_quality f).
Proof.
  destruct (FlightOption_init_fields d b off r)
    as (f & Hf & Hd & Hn & Hb & Ha & Hdir & Hs & Hq & Hp).
  destruct (FlightOption_init_fields d b' off r)
    as (f' & Hf' & Hd' & Hn' & Hb' & Ha' & Hdir' & Hs' & Hq' & Hp').
  exists f, f', (unfloored_price 0 f).
  split; [exact Hf|]. split; [exact Hf'|]. split.
  - pose proof (unfloored_price_bounds 0 f).
    pose proof (panic_modifier_bounds f). lia.
  - split; [rewrite Hp, unfloored_price_shift; reflexivity|].
    rewrite Hn in Hn'. injection Hn' as Hn'.
    rewrite <- Hb in Hb'. rewrite <- Hdir in Hdir'.
    rewrite <- Hs in Hs'. rewrite <- Hq in Hq'. rewrite Hb', <- Ha in Ha'.
    rewrite (unfloored_price_shift b') in Hp'.
    assert (Hm : unfloored_price 0 f' = unfloored_price 0 f).
    { unfold unfloored_price, weekday_modifier, panic_modifier,
        time_modifier. rewrite <- Hn', Hb', Hdir', Hq', Hd, Hd'.
      reflexivity. }
    rewrite Hm in Hp'. destruct f, f'. cbn in *. subst. reflexivity.
Qed.

(** X4. Seen through the score, the constructor's choices net out: a
    layover adds nothing and a direct flight 20, the premium tier adds
    nothing and the budget tier takes 30 off, a prime time adds 30 and
    an awkward one 10; the waiting cost, the weekday and last-minute
    modifiers and whatever the floor of 100 adds to the price remain. *)
Theorem constructor_net_score (d b off : Z) (r : Rng) :
  exists f,
    FlightOption_init d b off r = Ok (f, skip 3 r)
    /\ calculate_score f
       = b + 5 * d
         + (if is_direct f then 20 else 0)
         + (if quality_bonus f then 0 else -30)
         + (if String.eqb (time_quality f) "Prime" then 30
            else if String.eqb (time_quality f) "Awkward" then 10 else 0)
         + weekday_modifier f + panic_modifier f
         + Z.max 0 (100 - unfloored_price b f).
Proof.
  destruct (FlightOption_init_fields d b off r)
    as (f & Hf & Hd & _ & _ & _ & _ & _ & Hq & Hp).
  exists f. split; [exact Hf|].
  unfold calculate_score, DAILY_PATIENCE_COST, VALUE_OF_DIRECT_FLIGHT,
    VALUE_OF_GOOD_TIME, VALUE_OF_PREMIUM_AIRLINE.
  rewrite Hp, Hd. unfold unfloored_price, time_modifier.
  rewrite Hq. cbv zeta.
  destruct (is_direct f), (quality_bonus f);
    destruct ((10 <=? drawn (randint 5 23) (skip 2 r))
              && (drawn (randint 5 23) (skip 2 r) <=? 16));
    try destruct ((drawn (randint 5 23) (skip 2 r) <? 8)
                  || (drawn (randint 5 23) (skip 2 r) >? 20));
    cbn [negb String.eqb Ascii.eqb Bool.eqb]; lia.
Qed.

(** ** Further properties of the score and of the table *)

Lemma calculate_score_unfold f :
  calculate_score f
  = price f + day_index f * 5
    + (if is_direct f then 0 else 60)
    + (if String.eqb (time_quality f) "Awkward" then 40 else 0)
    - (if quality_bonus f then 50 else 0).
Proof.
  unfold calculate_score, DAILY_PATIENCE_COST, VALUE_OF_DIRECT_FLIGHT,
    VALUE_OF_GOOD_TIME, VALUE_OF_PREMIUM_AIRLINE.
  destruct (is_direct f), (quality_bonus f),
    (String.eqb (time_quality f) "Awkward"); cbn [negb]; lia.
Qed.

(** X5. An offer whose day is not negative scores below its price
    exactly when it has the premium bonus, is direct, and lies less
    than ten days ahead, or less than two when its time is awkward:
    only then does the bonus of 50 outweigh the 5 per day of waiting
    and the 40 of an awkward time. *)
Theorem score_below_price (f : FlightOption) :
  0 <= day_index f ->
  (calculate_score f < price f
   <-> quality_bonus f = true /\ is_direct f = true
       /\ day_index f
          < (if String.eqb (time_quality f) "Awkward" then 2 else 10)).
Proof.
  intros Hd. rewrite calculate_score_unfold.
  destruct (String.eqb (time_quality f) "Awkward"),
    (is_direct f), (quality_bonus f); split;
    solve [ intros H; repeat split; lia
          | intros (Hb & Hdir & Hlt); (discriminate || lia) ].
Qed.

Lemma score_below_price_witness :
  0 <= day_index sample_luxury
  /\ (calculate_score sample_luxury < price sample_luxury
      <-> quality_bonus sample_luxury = true /\ is_direct sample_luxury = true
          /\ day_index sample_luxury
             < (if String.eqb (time_quality sample_luxury) "Awkward"
                then 2 else 10)).
Proof.
  split; [cbn; lia | apply (score_below_price sample_luxury); cbn; lia].
Defined.

(** X6. The table marks a row as luxury value only for an offer that is
    not the winner, is named "LuxAir", has the premium bonus, is direct,
    is not at an awkward time and lies 3 to 9 days ahead; its score is
    then its price plus 5 per day less 50. *)
Theorem luxury_value_note (is_best : bool) (f : FlightOption) :
  row_note is_best f = "💎 Luxury Value"%string ->
  is_best = false
  /\ 3 <= day_index f <= 9
  /\ airline f = "LuxAir"%string
  /\ quality_bonus f = true /\ is_direct f = true
  /\ time_quality f <> "Awkward"%string
  /\ calculate_score f = price f + 5 * day_index f - 50.
Proof.
  unfold row_note. cbv zeta.
  destruct is_best; [discriminate|].
  destruct (Z.ltb_spec (day_index f) 3) as [|Hd]; [discriminate|].
  destruct (str_in (day_name f) ["Fri"; "Sun"]%string
            && (calculate_score f >? price f)); [discriminate|].
  destruct (String.eqb_spec (airline f) "LuxAir") as [Ha|];
    [|discriminate].
  destruct (Z.ltb_spec (calculate_score f) (price f)) as [Hlt|];
    [|discriminate].
  intros _. rewrite calculate_score_unfold in *.
  destruct (String.eqb_spec (time_quality f) "Awkward") as [Hq|Hq];
    destruct (is_direct f), (quality_bonus f); try lia.
  repeat split; try assumption; lia.
Qed.

Lemma luxury_value_note_witness :
  row_note false sample_luxury = "💎 Luxury Value"%string
  /\ (false = false
      /\ 3 <= day_index sample_luxury <= 9
      /\ airline sample_luxury = "LuxAir"%string
      /\ quality_bonus sample_luxury = true /\ is_direct sample_luxury = true
      /\ time_quality sample_luxury <> "Awkward"%string
      /\ calculate_score sample_luxury
         = price sample_luxury + 5 * day_index sample_luxury - 50).
Proof.
  split; [reflexivity | apply (luxury_value_note false sample_luxury)].
  reflexivity.
Defined.

(** X7. From day 3 on, a Friday or Sunday offer that is not the winner
    is marked as weekend premium exactly when it lacks the premium
    bonus, or is a layover, or is at an awkward time, or lies more than
    ten days ahead. *)
Theorem weekend_premium_note (f : FlightOption) :
  3 <= day_index f ->
  str_in (day_name f) ["Fri"; "Sun"]%string = true ->
  (row_note false f = "⚠️ Weekend Premium"%string
   <-> quality_bonus f = false \/ is_direct f = false
       \/ time_quality f = "Awkward"%string \/ 10 < day_index f).
Proof.
  intros Hd Hday. unfold row_note. cbv zeta.
  destruct (Z.ltb_spec (day_index f) 3); [lia|].
  rewrite Hday. cbn [andb].
  assert (Hgt : calculate_score f > price f
                <-> quality_bonus f = false \/ is_direct f = false
                    \/ time_quality f = "Awkward"%string
                    \/ 10 < day_index f).
  { rewrite calculate_score_unfold.
    destruct (String.eqb_spec (time_quality f) "Awkward") as [Hq|Hq];
      destruct (is_direct f), (quality_bonus f); split; try lia; auto;
      intros [?|[?|[?|?]]]; try congruence; lia. }
  destruct (Z.gtb_spec (calculate_score f) (price f)) as [Hs|Hs].
  - split; [intros _; apply Hgt; lia | reflexivity].
  - split.
    + destruct (String.eqb (airline f) "LuxAir"
                && (calculate_score f <? price f)); discriminate.
    + intros Hr. apply Hgt in Hr. lia.
Qed.

Lemma weekend_premium_note_witness :
  3 <= day_index sample_friday
  /\ str_in (day_name sample_friday) ["Fri"; "Sun"]%string = true
  /\ (row_note false sample_friday = "⚠️ Weekend Premium"%string
      <-> quality_bonus sample_friday = false \/ is_direct sample_friday = false
          \/ time_quality sample_friday = "Awkward"%string
          \/ 10 < day_index sample_friday).
Proof.
  split; [cbn; lia|]. split; [reflexivity|].
  apply (weekend_premium_note sample_friday); [cbn; lia | reflexivity].
Defined.

(** ** Further properties of the generator *)

Lemma walk_from_bounds start r k :
  Z.max 200 (start - 60 * Z.of_nat k) <= Z.max 200 (walk_from start r k)
  /\ walk_from start r k <= Z.max 200 start + 60 * Z.of_nat k.
Proof.
  induction k as [|k [IHlo IHhi]]; [cbn [walk_from]; lia|].
  cbn [walk_from].
  pose proof (randint_range (-60) 60 (skip (4 * k + 3) r) ltac:(lia)).
  lia.
Qed.

(** The walk stays within reach of its start: after [k] steps it is at
    least 200 and at least [700 - 60k], and at most [1100 + 60k]. *)
Lemma market_walk_bounds (r : Rng) (k : nat) :
  Z.max 200 (700 - 60 * Z.of_nat k) <= market_walk r k
  <= 1100 + 60 * Z.of_nat k.
Proof.
  unfold market_walk.
  pose proof (randint_range 700 1100 r ltac:(lia)) as Hstart.
  pose proof (walk_from_bounds (drawn (randint 700 1100) r) (skip 2 r) k)
    as [Hlo Hhi].
  assert (200 <= walk_from (drawn (randint 700 1100) r) (skip 2 r) k)
    by (destruct k; cbn [walk_from]; lia).
  lia.
Qed.

(** X8. The market price that a run hands to the constructor on day
    [k] is at least 200 and at least [700 - 60k], and at most
    [1100 + 60k]: the offer of day [k] is the one the constructor
    builds from a price within these bounds. *)
Theorem generated_market_price_bounds (days : Z) (r : Rng) :
  exists flights,
    generate_flight_data days r
    = Ok (flights, skip (2 + 4 * Z.to_nat days) r)
    /\ Forall2
         (fun k f =>
            exists base,
              FlightOption_init (Z.of_nat k) base (market_offset r)
                                (skip (2 + 4 * k) r)
              = Ok (f, skip (2 + 4 * k + 3) r)
              /\ base = market_walk r k
              /\ Z.max 200 (700 - 60 * Z.of_nat k) <= base
                 <= 1100 + 60 * Z.of_nat k)
         (seq 0 (Z.to_nat days)) flights.
Proof.
  destruct (generate_flight_data_offers days r) as (fl & Hrun & Hall).
  exists fl. split; [exact Hrun|].
  eapply Forall2_impl; [|exact Hall].
  intros k f Hb. exists (market_walk r k).
  split; [exact Hb|]. split; [reflexivity | apply market_walk_bounds].
Qed.

Lemma built_on_fields r k f :
  built_on r k f ->
  day_index f = Z.of_nat k
  /\ price f = Z.max 100 (unfloored_price (market_walk r k) f).
Proof.
  unfold built_on. intros H.
  destruct (FlightOption_init_fields (Z.of_nat k) (market_walk r k)
              (market_offset r) (skip (2 + 4 * k) r))
    as (g & Hg & Hday & _ & _ & _ & _ & _ & _ & Hprice).
  rewrite Hg in H. injection H as <-. auto.
Qed.

(** X9. The price of the offer of day [k] of a run lies between
    [max(100, max(200, 700 - 60k) - 160 + panic)] and
    [1280 + 60k + panic], where [panic] is 150 on days 0 to 2 and 0
    later.  The floor of 100 can only take effect after day 7: up to
    then the price is the market price plus the modifiers. *)
Theorem generated_price_bounds (days : Z) (r : Rng) :
  exists flights r',
    generate_flight_data days r = Ok (flights, r')
    /\ Forall2
         (fun k f =>
            let panic := if Z.of_nat k <? 3 then 150 else 0 in
            Z.max 100 (Z.max 200 (700 - 60 * Z.of_nat k) - 160 + panic)
            <= price f <= 1280 + 60 * Z.of_nat k + panic
            /\ (price f = unfloored_price (market_walk r k) f
                \/ (7 < k)%nat /\ price f = 100))
         (seq 0 (Z.to_nat days)) flights.
Proof.
  destruct (generate_flight_data_offers days r) as (fl & Hrun & Hall).
  exists fl, (skip (2 + 4 * Z.to_nat days) r). split; [exact Hrun|].
  eapply Forall2_impl; [|exact Hall].
  intros k f Hb. destruct (built_on_fields r k f Hb) as (Hday & Hprice).
  pose proof (market_walk_bounds r k) as Hm.
  pose proof (unfloored_price_bounds (market_walk r k) f) as Hu.
  unfold panic_modifier in Hu. rewrite Hday in Hu. cbv zeta.
  destruct (Z.of_nat k <? 3); (split; [lia|]);
    destruct (Z_le_gt_dec 100 (unfloored_price (market_walk r k) f));
    solve [left; lia | right; lia].
Qed.

Lemma built_on_functional r k f g :
  built_on r k f -> built_on r k g -> f = g.
Proof. unfold built_on. intros Hf Hg. congruence. Qed.

Lemma Forall2_functional {A B} (R : A -> B -> Prop) l l1 l2 :
  (forall a b c, R a b -> R a c -> b = c) ->
  Forall2 R l l1 -> Forall2 R l l2 -> l1 = l2.
Proof.
  intros Hfun H1. revert l2.
  induction H1; intros l2 H2; inversion H2; subst; [reflexivity|].
  f_equal; eauto.
Qed.

(** X10. A longer horizon extends a shorter one: from the same
    generator state, the schedule for [days'] days starts with the
    schedule for [days <= days'] days. *)
Theorem generate_flight_data_prefix (days days' : Z) (r : Rng) :
  days <= days' ->
  exists flights more r1 r2,
    generate_flight_data days r = Ok (flights, r1)
    /\ generate_flight_data days' r = Ok (flights ++ more, r2)
    /\ Z.of_nat (List.length more) = Z.max 0 days' - Z.max 0 days.
Proof.
  intros Hle.
  destruct (generate_flight_data_offers days r) as (fl & Hrun & Hall).
  destruct (generate_flight_data_offers days' r) as (fl' & Hrun' & Hall').
  replace (Z.to_nat days')
    with (Z.to_nat days + (Z.to_nat days' - Z.to_nat days))%nat in Hall'
    by lia.
  rewrite seq_app in Hall'.
  apply Forall2_app_inv_l in Hall' as (l1 & l2 & H1 & H2 & ->).
  assert (l1 = fl) as ->.
  { eapply Forall2_functional; [|exact H1|exact Hall].
    intros a b c. apply built_on_functional. }
  exists fl, l2. do 2 eexists. split; [exact Hrun|]. split; [exact Hrun'|].
  apply Forall2_length in H2. rewrite length_seq in H2. lia.
Qed.

Lemma generate_flight_data_prefix_witness :
  3 <= 5
  /\ exists flights more r1 r2,
       generate_flight_data 3 sample_rng = Ok (flights, r1)
       /\ generate_flight_data 5 sample_rng = Ok (flights ++ more, r2)
       /\ Z.of_nat (List.length more) = Z.max 0 5 - Z.max 0 3.
Proof.
  split; [lia | apply (generate_flight_data_prefix 3 5 sample_rng); lia].
Defined.

Lemma Forall2_nth_error_right {A B} (R : A -> B -> Prop) l l' :
  Forall2 R l l' ->
  forall i b, nth_error l' i = Some b ->
              exists a, nth_error l i = Some a /\ R a b.
Proof.
  induction 1 as [|a b l l' HR _ IH]; intros [|i] c Hc; try discriminate.
  - injection Hc as <-. exists a. auto.
  - exact (IH i c Hc).
Qed.

(** X11. Generation followed by selection, as [__main__] runs them:
    for every positive number of days a best offer exists; it is the
    offer of some day [i] of the schedule, [0 <= i < days], it costs at
    least 100, scores at least 50 and scores no more than any offer of
    the schedule. *)
Theorem generated_best_flight (days : Z) (r : Rng) :
  0 < days ->
  exists flights r' best i,
    generate_flight_data days r = Ok (flights, r')
    /\ find_best_flight flights = Some best
    /\ nth_error flights i = Some best
    /\ day_index best = Z.of_nat i
    /\ 0 <= day_index best < days
    /\ 100 <= price best
    /\ 50 <= calculate_score best
    /\ Forall (fun f => calculate_score best <= calculate_score f) flights.
Proof.
  intros Hdays.
  destruct (generate_flight_data_offers days r) as (fl & Hrun & Hall).
  assert (Hne : fl <> []).
  { apply Forall2_length in Hall. rewrite length_seq in Hall.
    destruct fl; [cbn in Hall; lia | discriminate]. }
  destruct (find_best_flight_first_minimum fl Hne)
    as (i & b & Hbest & Hi & Hmin & _).
  destruct (Forall2_nth_error_right _ _ _ Hall i b Hi) as (k & Hk & Hb).
  rewrite nth_error_seq in Hk.
  destruct (Nat.ltb_spec i (Z.to_nat days)) as [Hlt|]; [|discriminate].
  injection Hk as <-.
  destruct (built_on_inv r i b Hb) as (Hday & _ & Hprice).
  pose proof (calculate_score_lower b).
  exists fl, (skip (2 + 4 * Z.to_nat days) r), b, i.
  repeat split; try assumption; try lia.
  apply Forall_forall. exact Hmin.
Qed.

Lemma generated_best_flight_witness :
  0 < 30
  /\ exists flights r' best i,
       generate_flight_data 30 sample_rng = Ok (flights, r')
       /\ find_best_flight flights = Some best
       /\ nth_error flights i = Some best
       /\ day_index best = Z.of_nat i
       /\ 0 <= day_index best < 30
       /\ 100 <= price best
       /\ 50 <= calculate_score best
       /\ Forall (fun f => calculate_score best <= calculate_score f) flights.
Proof.
  split; [lia | apply (generated_best_flight 30 sample_rng); lia].
Defined.

(** *** What a run reads of the generator *)

Lemma agree_word n r r' : agree (S n) r r' -> word r = word r'.
Proof.
  intros [Hc Hw]. unfold word. specialize (Hw 0%nat ltac:(lia)).
  rewrite !Nat.add_0_r in Hw. exact Hw.
Qed.

Lemma agree_skip n m r r' :
  agree (m + n) r r' -> agree n (skip m r) (skip m r').
Proof.
  intros [Hc Hw]. split; cbn [skip cursor entropy]; [congruence|].
  intros i Hi. rewrite <- !Nat.add_assoc. apply Hw. lia.
Qed.

Lemma agree_less n m r r' : (n <= m)%nat -> agree m r r' -> agree n r r'.
Proof. intros Hle [Hc Hw]. split; [exact Hc|]. intros i Hi. apply Hw. lia. Qed.

Lemma agree_randint a b n r r' :
  agree (S n) r r' -> drawn (randint a b) r = drawn (randint a b) r'.
Proof.
  intros H. unfold drawn, randint. rewrite (agree_word n r r' H).
  destruct (b <? a); reflexivity.
Qed.

Lemma agree_random n r r' :
  agree (S n) r r' -> drawn random r = drawn random r'.
Proof.
  intros H. unfold drawn, random. rewrite (agree_word n r r' H). reflexivity.
Qed.

Lemma FlightOption_ext f g :
  day_index f = day_index g -> day_name f = day_name g ->
  airline f = airline g -> quality_bonus f = quality_bonus g ->
  is_direct f = is_direct g -> price f = price g ->
  time_str f = time_str g -> time_quality f = time_quality g ->
  f = g.
Proof. destruct f, g. cbn. intros. subst. reflexivity. Qed.

(** The constructor reads three entropy words. *)
Lemma FlightOption_init_agree d b off r r' :
  agree 3 r r' ->
  exists f, FlightOption_init d b off r = Ok (f, skip 3 r)
            /\ FlightOption_init d b off r' = Ok (f, skip 3 r').
Proof.
  intros H.
  destruct (FlightOption_init_fields d b off r)
    as (f & Hf & Hd & Hn & Hb & Ha & Hdir & Hs & Hq & Hp).
  destruct (FlightOption_init_fields d b off r')
    as (f' & Hf' & Hd' & Hn' & Hb' & Ha' & Hdir' & Hs' & Hq' & Hp').
  exists f. split; [exact Hf|]. rewrite Hf'. do 2 f_equal.
  rewrite <- (agree_random 2 r r' H) in Hb'.
  rewrite <- (agree_random 1 (skip 1 r) (skip 1 r')) in Hdir'
    by (apply (agree_skip 2 1); exact H).
  rewrite <- (agree_randint 5 23 0 (skip 2 r) (skip 2 r')) in Hs', Hq'
    by (apply (agree_skip 1 2); exact H).
  rewrite Hn in Hn'. injection Hn' as Hn'.
  rewrite <- Hb in Hb'. rewrite <- Hdir in Hdir'.
  rewrite <- Hs in Hs'. rewrite <- Hq in Hq'. rewrite Hb', <- Ha in Ha'.
  assert (Hm : unfloored_price b f' = unfloored_price b f).
  { unfold unfloored_price, weekday_modifier, panic_modifier,
      time_modifier. rewrite <- Hn', Hb', Hdir', Hq', Hd, Hd'.
    reflexivity. }
  rewrite Hm, <- Hp in Hp'. rewrite <- Hd in Hd'.
  symmetry. apply FlightOption_ext; congruence.
Qed.

Lemma generate_loop_agree n : forall s acc mp off r r',
  agree (4 * n) r r' ->
  exists fl,
    generate_loop (map Z.of_nat (seq s n)) acc mp off r
    = Ok (fl, skip (4 * n) r)
    /\ generate_loop (map Z.of_nat (seq s n)) acc mp off r'
       = Ok (fl, skip (4 * n) r').
Proof.
  induction n as [|n IH]; intros s acc mp off r r' H.
  - exists acc. cbn. unfold ret. rewrite !skip_0. auto.
  - destruct (FlightOption_init_agree (Z.of_nat s) mp off r r')
      as (f & Hf & Hf'); [apply (agree_less 3 (4 * S n)); [lia | exact H]|].
    cbn [seq map generate_loop]. unfold bind at 1 3. rewrite Hf, Hf'.
    unfold bind at 1 2. rewrite !(randint_run (-60) 60) by lia.
    rewrite !skip_skip. cbn [Nat.add].
    assert (H3 : agree 1 (skip 3 r) (skip 3 r'))
      by (apply (agree_skip 1 3), (agree_less 4 (4 * S n)); [lia | exact H]).
    rewrite <- (agree_randint (-60) 60 0 (skip 3 r) (skip 3 r') H3).
    destruct (IH (S s) (acc ++ [f])
                (Z.max 200 (mp + drawn (randint (-60) 60) (skip 3 r)))
                off (skip 4 r) (skip 4 r')) as (fl & Hrun & Hrun').
    { apply agree_skip. replace (4 + 4 * n)%nat with (4 * S n)%nat by lia.
      exact H. }
    exists fl. rewrite Hrun, Hrun', !skip_skip.
    replace (4 + 4 * n)%nat with (4 * S n)%nat by lia. auto.
Qed.

(** X12. A run for [days] days reads [2 + 4 * days] entropy words and
    nothing else of the generator: two generators that stand at the
    same draw and agree on these words give the same schedule, and each
    is left advanced by that many draws. *)
Theorem generate_flight_data_reads (days : Z) (r r' : Rng) :
  agree (2 + 4 * Z.to_nat days) r r' ->
  exists flights,
    generate_flight_data days r
    = Ok (flights, skip (2 + 4 * Z.to_nat days) r)
    /\ generate_flight_data days r'
       = Ok (flights, skip (2 + 4 * Z.to_nat days) r').
Proof.
  intros H. unfold generate_flight_data, bind, range.
  rewrite !(randint_run 700 1100), !(randint_run 0 6) by lia.
  rewrite !skip_skip. cbn [Nat.add].
  rewrite <- (agree_randint 700 1100 (1 + 4 * Z.to_nat days) r r' H).
  assert (H1 : agree 1 (skip 1 r) (skip 1 r'))
    by (apply (agree_skip 1 1), (agree_less 2 (2 + 4 * Z.to_nat days));
        [lia | exact H]).
  rewrite <- (agree_randint 0 6 0 (skip 1 r) (skip 1 r') H1).
  destruct (generate_loop_agree (Z.to_nat days) 0 []
              (drawn (randint 700 1100) r) (drawn (randint 0 6) (skip 1 r))
              (skip 2 r) (skip 2 r')) as (fl & Hrun & Hrun').
  { apply agree_skip. exact H. }
  exists fl. rewrite Hrun, Hrun', !skip_skip. auto.
Qed.

Lemma generate_flight_data_reads_witness :
  agree (2 + 4 * Z.to_nat 3) sample_rng (with_word 14 0 sample_rng)
  /\ exists flights,
       generate_flight_data 3 sample_rng
       = Ok (flights, skip (2 + 4 * Z.to_nat 3) sample_rng)
       /\ generate_flight_data 3 (with_word 14 0 sample_rng)
          = Ok (flights,
                skip (2 + 4 * Z.to_nat 3) (with_word 14 0 sample_rng)).
Proof.
  assert (H : agree (2 + 4 * Z.to_nat 3) sample_rng
                (with_word 14 0 sample_rng)).
  { split; [reflexivity|]. intros i Hi. cbn in Hi |- *.
    destruct (Nat.eqb_spec i 14); [lia | reflexivity]. }
  split; [exact H|].
  apply (generate_flight_data_reads 3 sample_rng (with_word 14 0 sample_rng)).
  exact H.
Defined.

(** ** Further properties of the selection *)

Lemma first_minimum_unique l i b i' b' :
  first_minimum l i b -> first_minimum l i' b' -> b = b'.
Proof.
  intros (Hi & Hmin & Hbefore) (Hi' & Hmin' & Hbefore').
  destruct (Nat.lt_trichotomy i i') as [Hlt | [-> | Hlt]].
  - specialize (Hbefore' i b Hlt Hi).
    specialize (Hmin b' (nth_error_In _ _ Hi')). lia.
  - congruence.
  - specialize (Hbefore i' b' Hlt Hi').
    specialize (Hmin' b (nth_error_In _ _ Hi)). lia.
Qed.

Lemma first_minimum_app_left l1 l2 i a :
  first_minimum l1 i a ->
  (forall o, In o l2 -> calculate_score a <= calculate_score o) ->
  first_minimum (l1 ++ l2) i a.
Proof.
  intros (Hi & Hmin & Hbefore) H2.
  assert (Hlt : (i < List.length l1)%nat)
    by (apply nth_error_Some; congruence).
  repeat split.
  - rewrite nth_error_app1; assumption.
  - intros o [Ho | Ho]%in_app_or; auto.
  - intros j o Hj Hnth. apply (Hbefore j); [assumption|].
    rewrite nth_error_app1 in Hnth; [assumption | lia].
Qed.

Lemma first_minimum_app_right l1 l2 j b :
  first_minimum l2 j b ->
  (forall o, In o l1 -> calculate_score b < calculate_score o) ->
  first_minimum (l1 ++ l2) (List.length l1 + j) b.
Proof.
  intros (Hj & Hmin & Hbefore) H1. repeat split.
  - rewrite nth_error_app2 by lia.
    replace (List.length l1 + j - List.length l1)%nat with j by lia.
    exact Hj.
  - intros o [Ho | Ho]%in_app_or; [specialize (H1 o Ho); lia | auto].
  - intros k o Hk Hnth.
    destruct (Nat.lt_ge_cases k (List.length l1)) as [Hlt | Hge].
    + rewrite nth_error_app1 in Hnth by assumption.
      apply H1. exact (nth_error_In _ _ Hnth).
    + rewrite nth_error_app2 in Hnth by assumption.
      apply (Hbefore (k - List.length l1)%nat); [lia | exact Hnth].
Qed.

(** X13. The scan can be split: the best offer of [l1 ++ l2] is the
    better of the best of [l1] and the best of [l2], the one of [l1]
    winning a tie; an empty part contributes nothing. *)
Theorem find_best_flight_app (l1 l2 : list FlightOption) :
  find_best_flight (l1 ++ l2)
  = match find_best_flight l1, find_best_flight l2 with
    | Some a, Some b =>
        if calculate_score b <? calculate_score a then Some b else Some a
    | Some a, None => Some a
    | None, o => o
    end.
Proof.
  destruct l1 as [|x l1]; [reflexivity|].
  destruct l2 as [|y l2].
  { rewrite app_nil_r. change (find_best_flight []) with (@None FlightOption).
    destruct (find_best_flight (x :: l1)); reflexivity. }
  destruct (find_best_flight_first_minimum (x :: l1)) as (i & a & Ha & Hfa);
    [discriminate|].
  destruct (find_best_flight_first_minimum (y :: l2)) as (j & b & Hb & Hfb);
    [discriminate|].
  destruct (find_best_flight_first_minimum ((x :: l1) ++ y :: l2))
    as (k & c & Hc & Hfc); [discriminate|].
  rewrite Ha, Hb, Hc.
  destruct (Z.ltb_spec (calculate_score b) (calculate_score a)) as [Hlt|Hge];
    f_equal.
  - eapply first_minimum_unique; [exact Hfc|].
    apply first_minimum_app_right; [exact Hfb|].
    intros o Ho. destruct Hfa as (_ & Hmin & _). specialize (Hmin o Ho). lia.
  - eapply first_minimum_unique; [exact Hfc|].
    apply first_minimum_app_left; [exact Hfa|].
    intros o Ho. destruct Hfb as (_ & Hmin & _). specialize (Hmin o Ho). lia.
Qed.

Lemma find_best_loop_map (g : FlightOption -> FlightOption) :
  (forall a b, calculate_score (g a) < calculate_score (g b)
               <-> calculate_score a < calculate_score b) ->
  forall rest b,
    find_best_loop (map g rest) (Some (g b))
                   (Finite (calculate_score (g b)))
    = option_map g (find_best_loop rest (Some b)
                                   (Finite (calculate_score b))).
Proof.
  intros Hg. induction rest as [|x rest IH]; intros b; [reflexivity|].
  cbn [map find_best_loop int_lt].
  destruct (Z.ltb_spec (calculate_score x) (calculate_score b)) as [Hlt|Hge];
    destruct (Z.ltb_spec (calculate_score (g x)) (calculate_score (g b)))
      as [Hlt'|Hge']; try apply IH.
  - pose proof (proj2 (Hg x b) Hlt). lia.
  - pose proof (proj1 (Hg x b) Hlt'). lia.
Qed.

(** X14. The selection sees the offers through the order of their
    scores only: when [g] changes offers without changing how any two
    of them compare by score, the best of the changed offers is the
    changed best offer. *)
Theorem find_best_flight_map (g : FlightOption -> FlightOption)
    (flights : list FlightOption) :
  (forall a b, calculate_score (g a) < calculate_score (g b)
               <-> calculate_score a < calculate_score b) ->
  find_best_flight (map g flights) = option_map g (find_best_flight flights).
Proof.
  intros Hg. destruct flights as [|x rest]; [reflexivity|].
  unfold find_best_flight. cbn [map find_best_loop int_lt].
  apply find_best_loop_map. exact Hg.
Qed.

Lemma find_best_flight_map_witness :
  (forall a b, calculate_score (surcharge 25 a) < calculate_score (surcharge 25 b)
               <-> calculate_score a < calculate_score b)
  /\ find_best_flight (map (surcharge 25) [sample_premium; sample_budget])
     = option_map (surcharge 25)
         (find_best_flight [sample_premium; sample_budget]).
Proof.
  assert (H : forall a b,
             calculate_score (surcharge 25 a) < calculate_score (surcharge 25 b)
             <-> calculate_score a < calculate_score b).
  { intros a b. rewrite !calculate_score_unfold. cbn. lia. }
  split; [exact H|].
  apply (find_best_flight_map (surcharge 25) [sample_premium; sample_budget]).
  exact H.
Defined.
